(** * The jax-fem tutorial notebooks: Poisson and Neo-Hookean hyperelasticity

    The repository consists of two notebooks, [docs/source/learn/poisson.ipynb]
    and [docs/source/learn/hyperelasticity.ipynb].  Each one defines a few
    callables (weak-form kernels, boundary predicates, boundary values),
    assembles a boundary-condition descriptor and hands both to the external
    library [jax_fem].

    The development has two layers.

    - The callables are embedded as Rocq functions.  A Python float is
      idealised as a real number, a 1-D array is a [list R], a 2-D array a
      [list (list R)], and a Python exception is [None] in the [option]
      monad.
    - The statements of the code cells are transcribed as syntax trees
      ([stmt], [expr]), so that properties of the shape of the programs
      (which methods a class overrides, in what order the cells run, whether
      a statement can raise) are computed from the transcription. *)

From Stdlib Require Import String.
From Stdlib Require Import Reals Lra List ZArith Bool Arith Lia.
From Stdlib Require Import ClassicalEpsilon.
From Stdlib Require Import RNsatz.
Import ListNotations.

Open Scope R_scope.

(** ** The error monad: [None] is a raised Python exception *)

Definition bind {A B : Type} (m : option A) (k : A -> option B) : option B :=
  match m with
  | Some a => k a
  | None => None
  end.

Notation "x <- m ;; k" := (bind m (fun x => k))
  (at level 61, m at next level, right associativity).

(** ** The part of numpy the notebooks call *)

Module np.

Definition vector := list R.
Definition matrix := list (list R).

(** [x[i]] for a non-negative literal [i].  Out of range a NumPy array
    raises IndexError, which is what the model does; an array of jax clamps
    the index instead.  The arrays are handed in by the library, and the
    theorems below index in range only, where the two agree. *)
Definition getitem (x : vector) (i : nat) : option R := nth_error x i.

(** [np.array([a])] and unary minus on an array. *)
Definition array (l : list R) : vector := l.
Definition neg (v : vector) : vector := map Ropp v.

(** [np.power(x, y)] and [x ** y] on floats.  For [0 < x] this is
    [exp (y * ln x)]; for an integer-valued [y] it is the integer power,
    also at [x <= 0].  The last branch returns [0], which is the value at
    [x = 0 < y].  Where the floating-point result is NaN or infinite (a
    negative base with a fractional exponent, a zero base with a negative
    exponent) the reals have no such value, and no theorem below uses the
    value of the model there. *)
Definition power (x y : R) : R :=
  if Rlt_dec 0 x then Rpower x y
  else if Req_dec_T y (IZR (Int_part y)) then powerRZ x (Int_part y)
  else 0.

(** [np.isclose(a, b, atol=atol)] with the default [rtol = 1e-05]. *)
Definition rtol : R := 1e-5.
Definition isclose (a b atol : R) : bool :=
  if Rle_dec (Rabs (a - b)) (atol + rtol * Rabs b) then true else false.

(** The shape of a 2-D array; a ragged list of rows is not an array. *)
Definition nrows (M : matrix) : nat := length M.
Definition ncols (M : matrix) : nat := length (hd [] M).
Definition rectangular (M : matrix) : bool :=
  forallb (fun row => Nat.eqb (length row) (ncols M)) M.
Definition shape (M : matrix) : option (nat * nat) :=
  if rectangular M then Some (nrows M, ncols M) else None.

(** [np.eye(n)]: negative dimensions are refused. *)
Definition eye (n : Z) : option matrix :=
  if (n <? 0)%Z then None
  else
    let k := Z.to_nat n in
    Some (map (fun i => map (fun j => if Nat.eqb i j then 1 else 0) (seq 0 k))
              (seq 0 k)).

(** Broadcasting of one axis: equal sizes, or one of them is 1. *)
Definition broadcast (a b : nat) : option nat :=
  if Nat.eqb a b then Some a
  else if Nat.eqb a 1 then Some b
  else if Nat.eqb b 1 then Some a
  else None.

Definition stretch {A : Type} (n : nat) (l : list A) : list A :=
  match l with
  | [a] => repeat a n
  | _ => l
  end.

Fixpoint zip_with {A B C : Type} (f : A -> B -> C) (l : list A) (l' : list B)
  : list C :=
  match l, l' with
  | a :: t, b :: t' => f a b :: zip_with f t t'
  | _, _ => []
  end.

(** [A + B] on 2-D arrays, with broadcasting; a ValueError when the shapes
    do not broadcast. *)
Definition add (A B : matrix) : option matrix :=
  r <- broadcast (nrows A) (nrows B) ;;
  c <- broadcast (ncols A) (ncols B) ;;
  Some (zip_with (fun ra rb => zip_with Rplus (stretch c ra) (stretch c rb))
                 (stretch r A) (stretch r B)).

(** [M.T] *)
Definition transpose (M : matrix) : matrix :=
  map (fun j => map (fun row => nth j row 0) M) (seq 0 (ncols M)).

Definition dot (u v : vector) : R :=
  fold_right Rplus 0 (zip_with Rmult u v).

(** [A @ B]: a ValueError unless the inner dimensions agree. *)
Definition matmul (A B : matrix) : option matrix :=
  if Nat.eqb (ncols A) (nrows B)
  then Some (map (fun row => map (fun col => dot row col) (transpose B)) A)
  else None.

(** [np.trace(M)]: the sum of the main diagonal. *)
Definition trace (M : matrix) : R :=
  fold_right Rplus 0
    (map (fun i => nth i (nth i M []) 0) (seq 0 (Nat.min (nrows M) (ncols M)))).

(** [np.linalg.det(M)]: expansion along the first row; the determinant of
    the empty matrix is 1, and a matrix that is not square is refused. *)
Definition drop_col (j : nat) (row : vector) : vector :=
  firstn j row ++ skipn (S j) row.

Fixpoint det_rec (n : nat) (M : matrix) : R :=
  match n with
  | O => 1
  | S k =>
      match M with
      | [] => 1
      | row :: rest =>
          fold_right Rplus 0
            (map (fun j => (-1) ^ j * nth j row 0
                           * det_rec k (map (drop_col j) rest))
                 (seq 0 (length row)))
      end
  end.

Definition det (M : matrix) : option R :=
  if rectangular M && Nat.eqb (nrows M) (ncols M)
  then Some (det_rec (nrows M) M)
  else None.

End np.

(** ** The [Problem] base class, as far as the notebooks use it *)

(** The Dirichlet descriptor is a Python list whose entries are themselves
    lists of different kinds; [bc_column] is the tagged union of those kinds. *)
Inductive bc_column : Type :=
| LocationFns (fns : list (np.vector -> option bool))
| Vecs (components : list Z)
| ValueFns (fns : list (np.vector -> option R)).

(** Modelled from the spec: the [Problem] base abstraction of [jax_fem],
    whose definition is not among the source files.  The record holds the
    arguments that the notebooks pass to the constructor, except the mesh,
    an opaque value of the library that no function of the notebooks reads.
    A value of the record is the state of the instance [self] at the time a
    callable is evaluated; the notebooks read back the field [dim]. *)
Record Problem : Type := mkProblem {
  vec : Z;
  dim : Z;
  ele_type : string;
  dirichlet_bc_info : list bc_column;
  location_fns : option (list (np.vector -> option bool))
}.

(** Python's [l * n] on lists. *)
Definition list_mul {A : Type} (l : list A) (n : nat) : list A :=
  concat (repeat l n).

(** ** poisson.ipynb *)

Module Poisson.

(** [class Poisson(Problem)] *)

Definition get_tensor_map (self : Problem) {A : Type} : A -> A :=
  fun x => x.

Definition mass_map {U : Type} (u : U) (x : np.vector) : option np.vector :=
  x0 <- np.getitem x 0 ;;
  x1 <- np.getitem x 1 ;;
  let val :=
    np.neg (np.array
      [10 * exp (- (np.power (x0 - 0.5) 2 + np.power (x1 - 0.5) 2) / 0.02)])
  in Some val.

Definition get_mass_map (self : Problem) {U : Type}
  : U -> np.vector -> option np.vector :=
  mass_map.

Definition surface_map {U : Type} (u : U) (x : np.vector) : option np.vector :=
  x0 <- np.getitem x 0 ;;
  Some (np.neg (np.array [sin (5 * x0)])).

Definition get_surface_maps (self : Problem) {U : Type}
  : list (U -> np.vector -> option np.vector) :=
  [surface_map; surface_map].

(** Mesh cell: [Lx, Ly = 1., 1.] *)
Definition Lx : R := 1.
Definition Ly : R := 1.

(** Boundary locations. *)
Definition left (point : np.vector) : option bool :=
  p0 <- np.getitem point 0 ;; Some (np.isclose p0 0 1e-5).

Definition right (point : np.vector) : option bool :=
  p0 <- np.getitem point 0 ;; Some (np.isclose p0 Lx 1e-5).

Definition bottom (point : np.vector) : option bool :=
  p1 <- np.getitem point 1 ;; Some (np.isclose p1 0 1e-5).

Definition top (point : np.vector) : option bool :=
  p1 <- np.getitem point 1 ;; Some (np.isclose p1 Ly 1e-5).

(** Dirichlet boundary values. *)
Definition dirichlet_val_left (point : np.vector) : option R := Some 0.
Definition dirichlet_val_right (point : np.vector) : option R := Some 0.

Definition location_fns_dirichlet := [left; right].
Definition value_fns := [dirichlet_val_left; dirichlet_val_right].
Definition vecs : list Z := [0; 0]%Z.
Definition dirichlet_bc_info : list bc_column :=
  [LocationFns location_fns_dirichlet; Vecs vecs; ValueFns value_fns].

(** Neumann boundary locations. *)
Definition location_fns := [bottom; top].

(** [problem = Poisson(mesh=mesh, vec=1, dim=2, ele_type=ele_type,
    dirichlet_bc_info=dirichlet_bc_info, location_fns=location_fns)] *)
Definition problem : Problem :=
  mkProblem 1 2 "QUAD4" dirichlet_bc_info (Some location_fns).

End Poisson.

(** ** The part of jax the notebooks call: [jax.grad]

    [jax.grad] is external.  What the notebooks rely on is stated as a
    specification: wherever a scalar function of a 2-D array has all its
    partial derivatives, [jax.grad f] returns the array of those
    derivatives.  Nothing is assumed where [f] is not differentiable. *)

Module jax.

(** [M] with [t] added to the entry in row [i], column [j]. *)
Fixpoint add_at (row : np.vector) (j : nat) (t : R) : np.vector :=
  match row, j with
  | [], _ => []
  | a :: rest, O => (a + t) :: rest
  | a :: rest, S j' => a :: add_at rest j' t
  end.

Fixpoint bump (M : np.matrix) (i j : nat) (t : R) : np.matrix :=
  match M, i with
  | [], _ => []
  | row :: rest, O => add_at row j t :: rest
  | row :: rest, S i' => row :: bump rest i' j t
  end.

Definition entry (M : np.matrix) (i j : nat) : R := nth j (nth i M []) 0.

(** The restriction of [f] to the line through [F] along entry [(i, j)]. *)
Definition along (f : np.matrix -> option R) (F : np.matrix) (i j : nat)
  : R -> R :=
  fun t => match f (bump F i j t) with Some v => v | None => 0 end.

(** [P] is the gradient of [f] at [F]. *)
Definition is_gradient (f : np.matrix -> option R) (F P : np.matrix) : Prop :=
  (exists v, f F = Some v) /\
  map (@length R) P = map (@length R) F /\
  forall i j, (i < length F)%nat -> (j < length (nth i F []))%nat ->
    derivable_pt_lim (along f F i j) 0 (entry P i j).


(** One function that meets [grad_spec]: it picks the gradient where there
    is one and raises elsewhere. *)
Definition grad_choice (f : np.matrix -> option R) (F : np.matrix)
  : option np.matrix :=
  match excluded_middle_informative (exists P, is_gradient f F P) with
  | left H => Some (proj1_sig (constructive_indefinite_description _ H))
  | right _ => None
  end.

End jax.

(** ** hyperelasticity.ipynb *)

Module HyperElasticity.

(** [class HyperElasticity(Problem)] *)

Section TensorMap.

(** [jax.grad] *)
Variable grad : (np.matrix -> option R) -> np.matrix -> option np.matrix.

Definition psi (F : np.matrix) : option R :=
  let E := 10 in
  let nu := 0.3 in
  let mu := E / (2 * (1 + nu)) in
  let kappa := E / (3 * (1 - 2 * nu)) in
  J <- np.det F ;;
  let Jinv := np.power J (-2 / 3) in
  FtF <- np.matmul (np.transpose F) F ;;
  let I1 := np.trace FtF in
  let energy := (mu / 2) * (Jinv * I1 - 3) + (kappa / 2) * np.power (J - 1) 2 in
  Some energy.

Definition P_fn : np.matrix -> option np.matrix := grad psi.

Definition first_PK_stress (self : Problem) (u_grad : np.matrix)
  : option np.matrix :=
  I <- np.eye (dim self) ;;
  F <- np.add u_grad I ;;
  P <- P_fn F ;;
  Some P.

Definition get_tensor_map (self : Problem)
  : np.matrix -> option np.matrix :=
  first_PK_stress self.

End TensorMap.

(** Mesh cell: [Lx, Ly, Lz = 1., 1., 1.] *)
Definition Lx : R := 1.
Definition Ly : R := 1.
Definition Lz : R := 1.

(** Boundary locations. *)
Definition left (point : np.vector) : option bool :=
  p0 <- np.getitem point 0 ;; Some (np.isclose p0 0 1e-5).

Definition right (point : np.vector) : option bool :=
  p0 <- np.getitem point 0 ;; Some (np.isclose p0 Lx 1e-5).

(** Dirichlet boundary values. *)
Definition zero_dirichlet_val (point : np.vector) : option R := Some 0.

Definition dirichlet_val_x2 (point : np.vector) : option R :=
  p1 <- np.getitem point 1 ;;
  p2 <- np.getitem point 2 ;;
  Some ((0.5 + (p1 - 0.5) * cos (PI / 3) - (p2 - 0.5) * sin (PI / 3) - p1) / 2).

Definition dirichlet_val_x3 (point : np.vector) : option R :=
  p1 <- np.getitem point 1 ;;
  p2 <- np.getitem point 2 ;;
  Some ((0.5 + (p1 - 0.5) * sin (PI / 3) + (p2 - 0.5) * cos (PI / 3) - p2) / 2).

Definition dirichlet_bc_info : list bc_column :=
  [LocationFns (list_mul [left] 3 ++ list_mul [right] 3);
   Vecs (list_mul [0; 1; 2]%Z 2);
   ValueFns ([zero_dirichlet_val; dirichlet_val_x2; dirichlet_val_x3]
             ++ list_mul [zero_dirichlet_val] 3)].

(** [problem = HyperElasticity(mesh, vec=3, dim=3, ele_type=ele_type,
    dirichlet_bc_info=dirichlet_bc_info)] *)
Definition problem : Problem :=
  mkProblem 3 3 "HEX8" dirichlet_bc_info None.

End HyperElasticity.

(** ** The code cells as syntax

    The constructors follow Python's [ast] module.  Literals are kept as
    they are written. *)

Module Ast.

Set Warnings "-register-all".

Inductive expr : Type :=
| Name (id : string)
| Num (literal : string)
| Str (s : string)
| FStr (s : string)
| Attribute (value : expr) (attr : string)
| Subscript (value : expr) (slice : expr)
| Call (func : expr) (args : list expr) (keywords : list expr)
| Keyword (arg : string) (value : expr)
| BinOp (lhs : expr) (op : string) (rhs : expr)
| UnaryOp (op : string) (operand : expr)
| Lambda (params : list string) (body : expr)
| ListE (elts : list expr)
| TupleE (elts : list expr)
| DictE (keys : list expr) (values : list expr).

Inductive stmt : Type :=
| Import (name : string) (asname : option string)
| ImportFrom (module : string) (names : list string)
| ClassDef (name : string) (bases : list expr) (body : list stmt)
| FunctionDef (name : string) (params : list string) (body : list stmt)
| Return (value : expr)
| Assign (targets : list expr) (value : expr)
| Expr (value : expr)
| Raise (exc : option expr)
| Try (body handlers orelse finalbody : list stmt)
| Assert (test : expr)
| If (test : expr) (body orelse : list stmt).

(** A notebook is the list of its code cells, run from top to bottom. *)
Definition notebook := list (list stmt).
Definition program (nb : notebook) : list stmt := concat nb.


(** Every statement inside [s], [s] included. *)
Fixpoint substmts (s : stmt) : list stmt :=
  s ::
  match s with
  | ClassDef _ _ body | FunctionDef _ _ body => flat_map substmts body
  | Try b h o f =>
      flat_map substmts b ++ flat_map substmts h
      ++ flat_map substmts o ++ flat_map substmts f
  | If _ b o => flat_map substmts b ++ flat_map substmts o
  | _ => []
  end.





(** Names bound by [import]. *)
Definition imported_by (s : stmt) : list string :=
  match s with
  | Import n None => [n]
  | Import _ (Some a) => [a]
  | ImportFrom _ ns => ns
  | _ => []
  end.


(** *** Classes and the methods they override *)

Definition is_subclass_of (base : string) (s : stmt) : bool :=
  match s with
  | ClassDef _ bases _ =>
      existsb (fun b => match b with
                        | Name n => String.eqb n base
                        | _ => false
                        end) bases
  | _ => false
  end.

Definition subclasses_of (base : string) (p : list stmt) : list stmt :=
  filter (is_subclass_of base) p.

Definition class_name (s : stmt) : string :=
  match s with
  | ClassDef n _ _ => n
  | _ => EmptyString
  end.

Definition methods (s : stmt) : list string :=
  match s with
  | ClassDef _ _ body =>
      flat_map (fun m => match m with
                         | FunctionDef n _ _ => [n]
                         | _ => []
                         end) body
  | _ => []
  end.


Definition overrides (s : stmt) (meth : string) : bool :=
  existsb (String.eqb meth) (methods s).

(** *** Differentiation operators of jax *)





(** *** Error paths *)




(** *** Writes

    An assignment writes outside the running function when its target is
    an attribute or an item of some object; a plain name is a local
    variable (the notebooks have no [global] or [nonlocal]). *)




End Ast.

(** ** The two notebooks, cell by cell *)

Module Notebooks.

Import Ast.
Local Open Scope string_scope.

(** [m.f(args)] and [m.f(args, kw=...)] *)
Definition call_attr (m f : string) (args : list expr) : expr :=
  Call (Attribute (Name m) f) args [].
Definition item (x : string) (i : string) : expr :=
  Subscript (Name x) (Num i).

Definition isclose_def (name : string) (i : string) (target : expr) : stmt :=
  FunctionDef name ["point"]
    [Return (Call (Attribute (Name "np") "isclose")
                  [item "point" i; target]
                  [Keyword "atol" (Num "1e-5")])].

Definition vtk_path_stmt : stmt :=
  Assign [Name "vtk_path"]
    (Call (Attribute (Attribute (Name "os") "path") "join")
          [Name "data_dir"; FStr "vtk/u.vtu"] []).

Definition data_dir_stmt : stmt :=
  Assign [Name "data_dir"]
    (Call (Attribute (Attribute (Name "os") "path") "join")
          [Call (Attribute (Attribute (Name "os") "path") "dirname")
                [Name "__file__"] [];
           Str "data"] []).

(** *** poisson.ipynb *)

Definition poisson_imports : list stmt :=
  [Import "jax" None;
   Import "jax.numpy" (Some "np");
   Import "os" None;
   ImportFrom "jax_fem.problem" ["Problem"];
   ImportFrom "jax_fem.solver" ["solver"];
   ImportFrom "jax_fem.utils" ["save_sol"];
   ImportFrom "jax_fem.generate_mesh"
     ["get_meshio_cell_type"; "Mesh"; "rectangle_mesh"]].

Definition centred_square (i : string) : expr :=
  call_attr "np" "power" [BinOp (item "x" i) "-" (Num "0.5"); Num "2"].

Definition poisson_class : list stmt :=
  [ClassDef "Poisson" [Name "Problem"]
     [FunctionDef "get_tensor_map" ["self"]
        [Return (Lambda ["x"] (Name "x"))];
      FunctionDef "get_mass_map" ["self"]
        [FunctionDef "mass_map" ["u"; "x"]
           [Assign [Name "val"]
              (UnaryOp "-"
                 (call_attr "np" "array"
                    [ListE
                       [BinOp (Num "10") "*"
                          (call_attr "np" "exp"
                             [BinOp
                                (UnaryOp "-"
                                   (BinOp (centred_square "0") "+"
                                          (centred_square "1")))
                                "/" (Num "0.02")])]]));
            Return (Name "val")];
         Return (Name "mass_map")];
      FunctionDef "get_surface_maps" ["self"]
        [FunctionDef "surface_map" ["u"; "x"]
           [Return
              (UnaryOp "-"
                 (call_attr "np" "array"
                    [ListE
                       [call_attr "np" "sin"
                          [BinOp (Num "5.") "*" (item "x" "0")]]]))];
         Return (ListE [Name "surface_map"; Name "surface_map"])]]].

Definition poisson_mesh : list stmt :=
  [Assign [Name "ele_type"] (Str "QUAD4");
   Assign [Name "cell_type"]
     (Call (Name "get_meshio_cell_type") [Name "ele_type"] []);
   Assign [TupleE [Name "Lx"; Name "Ly"]] (TupleE [Num "1."; Num "1."]);
   Assign [Name "meshio_mesh"]
     (Call (Name "rectangle_mesh") []
           [Keyword "Nx" (Num "32"); Keyword "Ny" (Num "32");
            Keyword "domain_x" (Name "Lx"); Keyword "domain_y" (Name "Ly")]);
   Assign [Name "mesh"]
     (Call (Name "Mesh")
           [Attribute (Name "meshio_mesh") "points";
            Subscript (Attribute (Name "meshio_mesh") "cells_dict")
                      (Name "cell_type")] [])].

Definition poisson_boundary : list stmt :=
  [isclose_def "left" "0" (Num "0.");
   isclose_def "right" "0" (Name "Lx");
   isclose_def "bottom" "1" (Num "0.");
   isclose_def "top" "1" (Name "Ly");
   FunctionDef "dirichlet_val_left" ["point"] [Return (Num "0.")];
   FunctionDef "dirichlet_val_right" ["point"] [Return (Num "0.")];
   Assign [Name "location_fns_dirichlet"] (ListE [Name "left"; Name "right"]);
   Assign [Name "value_fns"]
     (ListE [Name "dirichlet_val_left"; Name "dirichlet_val_right"]);
   Assign [Name "vecs"] (ListE [Num "0"; Num "0"]);
   Assign [Name "dirichlet_bc_info"]
     (ListE [Name "location_fns_dirichlet"; Name "vecs"; Name "value_fns"])].

Definition poisson_neumann : list stmt :=
  [Assign [Name "location_fns"] (ListE [Name "bottom"; Name "top"])].

Definition poisson_problem : list stmt :=
  [Assign [Name "problem"]
     (Call (Name "Poisson") []
           [Keyword "mesh" (Name "mesh"); Keyword "vec" (Num "1");
            Keyword "dim" (Num "2"); Keyword "ele_type" (Name "ele_type");
            Keyword "dirichlet_bc_info" (Name "dirichlet_bc_info");
            Keyword "location_fns" (Name "location_fns")])].

Definition poisson_solve : list stmt :=
  [Assign [Name "sol"] (Call (Name "solver") [Name "problem"] [])].

(** The cell after the solve holds comments only. *)
Definition poisson_solver_options : list stmt := [].

Definition poisson_save : list stmt :=
  [data_dir_stmt;
   vtk_path_stmt;
   Expr (Call (Name "save_sol")
              [Subscript (Attribute (Name "problem") "fes") (Num "0");
               item "sol" "0"; Name "vtk_path"] [])].

Definition poisson_ipynb : notebook :=
  [poisson_imports; poisson_class; poisson_mesh; poisson_boundary;
   poisson_neumann; poisson_problem; poisson_solve; poisson_solver_options;
   poisson_save].

(** *** hyperelasticity.ipynb *)

Definition hyper_imports : list stmt :=
  [Import "jax" None;
   Import "jax.numpy" (Some "np");
   Import "os" None;
   ImportFrom "jax_fem.problem" ["Problem"];
   ImportFrom "jax_fem.solver" ["solver"];
   ImportFrom "jax_fem.utils" ["save_sol"];
   ImportFrom "jax_fem.generate_mesh"
     ["box_mesh_gmsh"; "get_meshio_cell_type"; "Mesh"]].

Definition psi_def : stmt :=
  FunctionDef "psi" ["F"]
    [Assign [Name "E"] (Num "10.");
     Assign [Name "nu"] (Num "0.3");
     Assign [Name "mu"]
       (BinOp (Name "E") "/"
              (BinOp (Num "2.") "*" (BinOp (Num "1.") "+" (Name "nu"))));
     Assign [Name "kappa"]
       (BinOp (Name "E") "/"
              (BinOp (Num "3.") "*"
                     (BinOp (Num "1.") "-"
                            (BinOp (Num "2.") "*" (Name "nu")))));
     Assign [Name "J"]
       (Call (Attribute (Attribute (Name "np") "linalg") "det")
             [Name "F"] []);
     Assign [Name "Jinv"]
       (BinOp (Name "J") "**"
              (BinOp (UnaryOp "-" (Num "2.")) "/" (Num "3.")));
     Assign [Name "I1"]
       (call_attr "np" "trace"
                  [BinOp (Attribute (Name "F") "T") "@" (Name "F")]);
     Assign [Name "energy"]
       (BinOp
          (BinOp (BinOp (Name "mu") "/" (Num "2.")) "*"
                 (BinOp (BinOp (Name "Jinv") "*" (Name "I1")) "-"
                        (Num "3.")))
          "+"
          (BinOp (BinOp (Name "kappa") "/" (Num "2.")) "*"
                 (BinOp (BinOp (Name "J") "-" (Num "1.")) "**"
                        (Num "2."))));
     Return (Name "energy")].

Definition first_PK_stress_def : stmt :=
  FunctionDef "first_PK_stress" ["u_grad"]
    [Assign [Name "I"]
       (call_attr "np" "eye" [Attribute (Name "self") "dim"]);
     Assign [Name "F"] (BinOp (Name "u_grad") "+" (Name "I"));
     Assign [Name "P"] (Call (Name "P_fn") [Name "F"] []);
     Return (Name "P")].

Definition hyper_class : list stmt :=
  [ClassDef "HyperElasticity" [Name "Problem"]
     [FunctionDef "get_tensor_map" ["self"]
        [psi_def;
         Assign [Name "P_fn"] (call_attr "jax" "grad" [Name "psi"]);
         first_PK_stress_def;
         Return (Name "first_PK_stress")]]].

Definition hyper_mesh : list stmt :=
  [Assign [Name "ele_type"] (Str "HEX8");
   Assign [Name "cell_type"]
     (Call (Name "get_meshio_cell_type") [Name "ele_type"] []);
   data_dir_stmt;
   Assign [TupleE [Name "Lx"; Name "Ly"; Name "Lz"]]
          (TupleE [Num "1."; Num "1."; Num "1."]);
   Assign [Name "meshio_mesh"]
     (Call (Name "box_mesh_gmsh") []
           [Keyword "Nx" (Num "20"); Keyword "Ny" (Num "20");
            Keyword "Nz" (Num "20");
            Keyword "Lx" (Name "Lx"); Keyword "Ly" (Name "Ly");
            Keyword "Lz" (Name "Lz");
            Keyword "data_dir" (Name "data_dir");
            Keyword "ele_type" (Name "ele_type")]);
   Assign [Name "mesh"]
     (Call (Name "Mesh")
           [Attribute (Name "meshio_mesh") "points";
            Subscript (Attribute (Name "meshio_mesh") "cells_dict")
                      (Name "cell_type")] [])].

Definition third_of_pi (f : string) : expr :=
  call_attr "np" f [BinOp (Attribute (Name "np") "pi") "/" (Num "3.")].

Definition centred (i : string) : expr :=
  BinOp (item "point" i) "-" (Num "0.5").

Definition hyper_boundary : list stmt :=
  [isclose_def "left" "0" (Num "0.");
   isclose_def "right" "0" (Name "Lx");
   FunctionDef "zero_dirichlet_val" ["point"] [Return (Num "0.")];
   FunctionDef "dirichlet_val_x2" ["point"]
     [Return
        (BinOp
           (BinOp
              (BinOp
                 (BinOp (Num "0.5") "+"
                        (BinOp (centred "1") "*" (third_of_pi "cos")))
                 "-" (BinOp (centred "2") "*" (third_of_pi "sin")))
              "-" (item "point" "1"))
           "/" (Num "2."))];
   FunctionDef "dirichlet_val_x3" ["point"]
     [Return
        (BinOp
           (BinOp
              (BinOp
                 (BinOp (Num "0.5") "+"
                        (BinOp (centred "1") "*" (third_of_pi "sin")))
                 "+" (BinOp (centred "2") "*" (third_of_pi "cos")))
              "-" (item "point" "2"))
           "/" (Num "2."))];
   Assign [Name "dirichlet_bc_info"]
     (ListE
        [BinOp (BinOp (ListE [Name "left"]) "*" (Num "3")) "+"
               (BinOp (ListE [Name "right"]) "*" (Num "3"));
         BinOp (ListE [Num "0"; Num "1"; Num "2"]) "*" (Num "2");
         BinOp (ListE [Name "zero_dirichlet_val"; Name "dirichlet_val_x2";
                       Name "dirichlet_val_x3"])
               "+"
               (BinOp (ListE [Name "zero_dirichlet_val"]) "*" (Num "3"))])].

Definition hyper_problem : list stmt :=
  [Assign [Name "problem"]
     (Call (Name "HyperElasticity") [Name "mesh"]
           [Keyword "vec" (Num "3"); Keyword "dim" (Num "3");
            Keyword "ele_type" (Name "ele_type");
            Keyword "dirichlet_bc_info" (Name "dirichlet_bc_info")])].

Definition hyper_solve : list stmt :=
  [Assign [Name "sol_list"]
     (Call (Name "solver") [Name "problem"]
           [Keyword "solver_options"
              (DictE [Str "petsc_solver"] [DictE [] []])])].

Definition hyper_save : list stmt :=
  [vtk_path_stmt;
   Expr (Call (Name "save_sol")
              [Subscript (Attribute (Name "problem") "fes") (Num "0");
               item "sol_list" "0"; Name "vtk_path"] [])].

Definition hyperelasticity_ipynb : notebook :=
  [hyper_imports; hyper_class; hyper_mesh; hyper_boundary; hyper_problem;
   hyper_solve; hyper_save].

(** The code of the repository. *)
Definition repository : list notebook :=
  [poisson_ipynb; hyperelasticity_ipynb].

End Notebooks.

(** ** The run of a notebook as a sequence of steps *)

Module Steps.

Import Ast.
Local Open Scope string_scope.

Inductive step : Type :=
| ImportLibrary (name : string)
| DefineKernels (cls : string)
| DefineBoundaryFn (name : string)
| ConstructMesh (helper : string)
| Instantiate (cls var : string)
| Solve (var : string) (args : list expr)
| Other.

Definition mesh_helpers : list string :=
  ["rectangle_mesh"; "box_mesh_gmsh"; "Mesh"].

(** What a call [var = f(args)] at top level does. *)
Definition call_step (classes : list string) (var f : string)
           (args : list expr) : step :=
  if existsb (String.eqb f) mesh_helpers then ConstructMesh f
  else if existsb (String.eqb f) classes then Instantiate f var
  else if String.eqb f "solver" then Solve var args
  else Other.

Definition step_of (classes : list string) (s : stmt) : step :=
  match s with
  | Import n _ => ImportLibrary n
  | ImportFrom m _ => ImportLibrary m
  | ClassDef n _ _ => DefineKernels n
  | FunctionDef n _ _ => DefineBoundaryFn n
  | Assign [Name v] (Call (Name f) args _) => call_step classes v f args
  | Expr (Call (Name f) args _) => call_step classes "" f args
  | _ => Other
  end.

Definition trace (nb : notebook) : list step :=
  map (step_of (map class_name (subclasses_of "Problem" (program nb))))
      (program nb).













End Steps.

(** ** Vocabulary of the properties *)

Definition eye3 : np.matrix := [[1; 0; 0]; [0; 1; 0]; [0; 0; 1]].
Definition zeros3 : np.matrix := [[0; 0; 0]; [0; 0; 0]; [0; 0; 0]].

(** The Neo-Hookean energy of [psi] as a function of [J] and [I1]. *)
Definition energy (J I1 : R) : R :=
  (10 / (2 * (1 + 0.3)) / 2) * (np.power J (-2 / 3) * I1 - 3)
  + (10 / (3 * (1 - 2 * 0.3)) / 2) * np.power (J - 1) 2.

Definition det3 (a b c d e f g h k : R) : R :=
  a * (e * k - f * h) - b * (d * k - f * g) + c * (d * h - e * g).



(** The Dirichlet descriptor of [p]: three parallel lists in the order
    locations, components, values, with every component below [vec p]. *)
Definition descriptor_ok (p : Problem) : Prop :=
  exists locs comps vals,
    dirichlet_bc_info p = [LocationFns locs; Vecs comps; ValueFns vals]
    /\ length locs = length comps
    /\ length comps = length vals
    /\ Forall (fun i => (0 <= i < vec p)%Z) comps.

(** The [Problem] subclasses of the repository. *)
Definition problem_subclasses : list Ast.stmt :=
  flat_map (fun nb => Ast.subclasses_of "Problem" (Ast.program nb))
           Notebooks.repository.

Definition overrides_all_three (cls : Ast.stmt) : bool :=
  Ast.overrides cls "get_tensor_map"
  && Ast.overrides cls "get_mass_map"
  && Ast.overrides cls "get_surface_maps".


(** ** Scopes: the names a notebook reads *)

Module Scope.

Import Ast.

Definition mem (n : string) (env : list string) : bool :=
  existsb (String.eqb n) env.

(** The names an expression reads; the parameters of a lambda are bound in
    its body. *)
Fixpoint reads (e : expr) : list string :=
  match e with
  | Name n => [n]
  | Num _ | Str _ | FStr _ => []
  | Attribute v _ => reads v
  | Subscript v s => reads v ++ reads s
  | Call f args kws => reads f ++ flat_map reads args ++ flat_map reads kws
  | Keyword _ v => reads v
  | BinOp l _ r => reads l ++ reads r
  | UnaryOp _ x => reads x
  | Lambda ps b => filter (fun n => negb (mem n ps)) (reads b)
  | ListE l | TupleE l => flat_map reads l
  | DictE ks vs => flat_map reads ks ++ flat_map reads vs
  end.

Definition missing (env : list string) (e : expr) : list string :=
  filter (fun n => negb (mem n env)) (reads e).

Definition target_names (ts : list expr) : list string :=
  flat_map reads ts.

(** Runs a block from top to bottom in the scope [env] and returns the names
    read while unbound, with the scope at the end of the block.  A function
    body is checked where the function is defined, in the scope of that
    point extended by the function and its parameters: every name it can
    read at a later call is then bound.  (Python looks names up at the call,
    so this check is the stricter one.) *)
Fixpoint run_stmt (env : list string) (s : stmt) : list string * list string :=
  let block :=
    fix block (env : list string) (l : list stmt) : list string * list string :=
      match l with
      | [] => ([], env)
      | s :: rest =>
          let (m, env') := run_stmt env s in
          let (m', env'') := block env' rest in
          (m ++ m', env'')
      end in
  match s with
  | Import _ _ | ImportFrom _ _ => ([], imported_by s ++ env)
  | ClassDef n bases body =>
      (flat_map (missing env) bases ++ fst (block env body), n :: env)
  | FunctionDef n ps body => (fst (block (ps ++ n :: env) body), n :: env)
  | Return v | Expr v | Assert v => (missing env v, env)
  | Assign ts v => (missing env v, target_names ts ++ env)
  | Raise (Some v) => (missing env v, env)
  | Raise None => ([], env)
  | Try b h o f =>
      (fst (block env b) ++ fst (block env h) ++ fst (block env o)
       ++ fst (block env f), env)
  | If t b o => (missing env t ++ fst (block env b) ++ fst (block env o), env)
  end.

Fixpoint run_block (env : list string) (l : list stmt) : list string :=
  match l with
  | [] => []
  | s :: rest => let (m, env') := run_stmt env s in m ++ run_block env' rest
  end.

Definition unbound_reads (nb : notebook) : list string :=
  run_block [] (program nb).

(** The definition of the function [name], at any depth. *)
Definition find_def (name : string) (p : list stmt) : option stmt :=
  find (fun s => match s with
                 | FunctionDef n _ _ => String.eqb n name
                 | _ => false
                 end) (flat_map substmts p).

(** The names the body of [name] reads from outside: neither its
    parameters nor bound in the body. *)
Definition captures (name : string) (nb : notebook) : list string :=
  match find_def name (program nb) with
  | Some s => nodup string_dec (fst (run_stmt [] s))
  | None => []
  end.

End Scope.

(** ** Vocabulary of the further properties *)

(** The source term [b] of the notebook. *)
Definition source_b (x0 x1 : R) : R :=
  10 * exp (- ((x0 - 0.5) * (x0 - 0.5) + (x1 - 0.5) * (x1 - 0.5)) / 0.02).

(** The sum of the squares of the entries, [I1 = trace (F.T @ F)]. *)
Definition sumsq3 (a b c d e f g h k : R) : R :=
  a * a + b * b + c * c + d * d + e * e + f * f + g * g + h * h + k * k.



Definition zeros2 : np.matrix := [[0; 0]; [0; 0]].

(** ** The model on small inputs *)

Example det_2x2 : np.det [[1; 2]; [3; 4]] = Some (-2).
Proof. unfold np.det; simpl. f_equal. ring. Qed.

Example det_not_square : np.det [[1; 2; 3]; [4; 5; 6]] = None.
Proof. reflexivity. Qed.

Example transpose_2x3 :
  np.transpose [[1; 2; 3]; [4; 5; 6]] = [[1; 4]; [2; 5]; [3; 6]].
Proof. reflexivity. Qed.

Example add_broadcasts_a_row :
  np.add [[1; 2; 3]] eye3 = Some [[2; 2; 3]; [1; 3; 3]; [1; 2; 4]].
Proof. unfold np.add, eye3; simpl. repeat f_equal; ring. Qed.

Example add_refuses_3x3_and_2x2 :
  np.add zeros3 [[1; 0]; [0; 1]] = None.
Proof. reflexivity. Qed.

Example isclose_within_atol : np.isclose 0.000001 0 1e-5 = true.
Proof.
  unfold np.isclose, np.rtol.
  destruct (Rle_dec _ _) as [H | H]; [reflexivity | ].
  exfalso; apply H.
  rewrite Rminus_0_r, Rabs_R0, Rabs_pos_eq; lra.
Qed.

Example left_at_the_left_side : Poisson.left [0; 0.3] = Some true.
Proof.
  unfold Poisson.left; simpl. f_equal.
  unfold np.isclose, np.rtol.
  destruct (Rle_dec _ _) as [H | H]; [reflexivity | ].
  exfalso; apply H.
  rewrite Rminus_0_r, Rabs_R0; lra.
Qed.

Example left_inside_the_domain : Poisson.left [0.5; 0.3] = Some false.
Proof.
  unfold Poisson.left; simpl. f_equal.
  unfold np.isclose, np.rtol.
  destruct (Rle_dec _ _) as [H | H]; [exfalso | reflexivity].
  rewrite Rminus_0_r, Rabs_R0, Rabs_pos_eq in H; lra.
Qed.

Example surface_map_at_origin :
  Poisson.surface_map tt [0; 1] = Some [-0].
Proof.
  unfold Poisson.surface_map; simpl.
  rewrite Rmult_0_r, sin_0. reflexivity.
Qed.

Example mass_map_short_position : Poisson.mass_map tt [0.5] = None.
Proof. reflexivity. Qed.

(** ** Lemmas on the numpy model *)

Lemma eye_3 : np.eye 3 = Some eye3.
Proof. reflexivity. Qed.


Lemma Int_part_IZR (z : Z) : Int_part (IZR z) = z.
Proof.
  symmetry; apply Int_part_spec; lra.
Qed.

Lemma power_square (x : R) : np.power x 2 = x * x.
Proof.
  unfold np.power.
  destruct (Rlt_dec 0 x) as [Hx | Hx].
  - replace 2 with (INR 2) by (simpl; lra).
    rewrite Rpower_pow by exact Hx. simpl; ring.
  - rewrite (Int_part_IZR 2).
    destruct (Req_dec_T 2 2) as [_ | H]; [ | contradiction H; reflexivity].
    simpl. ring.
Qed.

Lemma power_pos (x y : R) : 0 < x -> np.power x y = Rpower x y.
Proof.
  intros Hx; unfold np.power.
  destruct (Rlt_dec 0 x); [reflexivity | contradiction].
Qed.

Lemma psi_3x3 (a b c d e f g h k : R) :
  HyperElasticity.psi [[a; b; c]; [d; e; f]; [g; h; k]]
  = Some (energy (det3 a b c d e f g h k)
                 (a * a + b * b + c * c + d * d + e * e + f * f
                  + g * g + h * h + k * k)).
Proof.
  unfold HyperElasticity.psi, np.det, np.matmul. simpl.
  unfold energy, np.trace, np.dot; simpl.
  match goal with
  | |- context [np.power ?A (-2 / 3)] =>
      replace A with (det3 a b c d e f g h k) by (unfold det3; ring)
  end.
  do 4 f_equal. ring.
Qed.

(** ** The energy along a line through the identity *)

Lemma Rpower_base_1 (y : R) : Rpower 1 y = 1.
Proof. unfold Rpower. rewrite ln_1, Rmult_0_r. apply exp_0. Qed.


Section Derivatives.

Variables (f g : R -> R) (x a b : R).




Hypothesis Hf : derivable_pt_lim f x a.
Hypothesis Hg : derivable_pt_lim g x b.





End Derivatives.


(** ** The gradient of [psi] at the identity *)



(** ** [jax.grad_choice] meets the specification of [jax.grad] *)




(** ** The Poisson kernels *)

(** C1: the callable returned by [Poisson.get_tensor_map] is the identity:
    for every input gradient [g] it returns [g] itself, whatever the problem
    instance and whatever the type of [g]. *)
Theorem C1_tensor_map_is_identity :
  forall (self : Problem) (A : Type) (g : A),
    Poisson.get_tensor_map self g = g.
Proof.
  intros self A g. unfold Poisson.get_tensor_map. reflexivity.
Qed.

(** C9: the Poisson mass map and surface map ignore their solution argument:
    two solution values [u1], [u2] (of any types) give the same source term
    and the same traction at every position [x], both for the functions
    themselves and for the callables the class hands out. *)
Theorem C9_mass_and_surface_ignore_solution :
  forall (self : Problem) (U1 U2 : Type) (u1 : U1) (u2 : U2) (x : np.vector),
    Poisson.mass_map u1 x = Poisson.mass_map u2 x
    /\ Poisson.surface_map u1 x = Poisson.surface_map u2 x
    /\ Poisson.get_mass_map self u1 x = Poisson.get_mass_map self u2 x
    /\ map (fun f => f u1 x) (Poisson.get_surface_maps self)
       = map (fun f => f u2 x) (Poisson.get_surface_maps self).
Proof.
  intros self U1 U2 u1 u2 x.
  assert (Hm : Poisson.mass_map u1 x = Poisson.mass_map u2 x).
  { unfold Poisson.mass_map. destruct (np.getitem x 0); reflexivity. }
  assert (Hs : Poisson.surface_map u1 x = Poisson.surface_map u2 x).
  { unfold Poisson.surface_map. destruct (np.getitem x 0); reflexivity. }
  repeat split; try assumption.
Qed.

(** C10: [Poisson.get_surface_maps] returns a list of exactly two entries,
    both the function [surface_map], and the list is as long as the Neumann
    list [location_fns = [bottom, top]] given to the constructor. *)
Theorem C10_one_surface_map_per_neumann_side :
  forall (self : Problem) (U : Type),
    @Poisson.get_surface_maps self U
      = [Poisson.surface_map; Poisson.surface_map]
    /\ length (@Poisson.get_surface_maps self U) = 2%nat
    /\ nth_error (@Poisson.get_surface_maps self U) 0
       = nth_error (@Poisson.get_surface_maps self U) 1
    /\ Poisson.location_fns = [Poisson.bottom; Poisson.top]
    /\ location_fns Poisson.problem = Some Poisson.location_fns
    /\ length (@Poisson.get_surface_maps self U)
       = length Poisson.location_fns.
Proof.
  intros self U. repeat split; reflexivity.
Qed.

(** ** The boundary-condition descriptors *)

(** C4: in both notebooks the Dirichlet descriptor is a list of exactly
    three lists (location predicates, component indices, value functions,
    in that order) of equal length, and every component index [i] satisfies
    [0 <= i < vec] for the [vec] passed to the constructor. *)
Theorem C4_dirichlet_descriptor_well_formed :
  descriptor_ok Poisson.problem /\ descriptor_ok HyperElasticity.problem.
Proof.
  split.
  - exists Poisson.location_fns_dirichlet, Poisson.vecs, Poisson.value_fns.
    repeat split.
    unfold Poisson.vecs. repeat constructor; simpl; lia.
  - eexists _, _, _. split; [reflexivity | ].
    repeat split.
    simpl. repeat constructor; lia.
Qed.

(** ** The shape of the programs *)

(** C3, as stated, fails: not every [Problem] subclass overrides the three
    callables; [HyperElasticity] defines [get_tensor_map] only. *)
Lemma C3_hyperelasticity_overrides_tensor_map_only :
  ~ (forall cls, In cls problem_subclasses -> overrides_all_three cls = true).
Proof.
  intros H.
  assert (Hin : In (hd (Ast.Raise None) Notebooks.hyper_class)
                   problem_subclasses).
  { right; left; reflexivity. }
  specialize (H _ Hin). vm_compute in H. discriminate H.
Qed.

(** C3, amended: the repository defines two [Problem] subclasses; [Poisson]
    overrides [get_tensor_map], [get_mass_map] and [get_surface_maps],
    [HyperElasticity] overrides [get_tensor_map] only; so every subclass
    overrides the tensor map. *)
Theorem C3_overridden_callables :
  map (fun c => (Ast.class_name c, Ast.methods c)) problem_subclasses
  = [("Poisson", ["get_tensor_map"; "get_mass_map"; "get_surface_maps"]);
     ("HyperElasticity", ["get_tensor_map"])]%string
  /\ forallb (fun c => Ast.overrides c "get_tensor_map") problem_subclasses
     = true.
Proof.
  split; vm_compute; reflexivity.
Qed.





(** ** The Neo-Hookean kernel *)





(** ** Purity of the kernels *)




(** ** Error paths and totality *)

Lemma shape_3x3 (M : np.matrix) :
  np.shape M = Some (3, 3)%nat ->
  exists a b c d e f g h k, M = [[a; b; c]; [d; e; f]; [g; h; k]].
Proof.
  unfold np.shape. destruct (np.rectangular M) eqn:Hrect; [ | discriminate].
  intros Heq. injection Heq as Hrows Hcols.
  unfold np.rectangular in Hrect. rewrite Hcols in Hrect.
  destruct M as [ | r1 [ | r2 [ | r3 [ | r4 M]]]]; try discriminate Hrows.
  simpl in Hrect.
  repeat (apply andb_prop in Hrect; destruct Hrect as [?H Hrect]).
  repeat match goal with
         | H : Nat.eqb (length ?r) 3 = true |- _ =>
             apply Nat.eqb_eq in H;
             destruct r as [ | ? [ | ? [ | ? [ | ? ?]]]]; try discriminate H;
             clear H
         end.
  repeat eexists.
Qed.

Lemma bind_Some_r {A : Type} (o : option A) : (a <- o ;; Some a) = o.
Proof. destruct o; reflexivity. Qed.



(** * Further properties of the callables *)


(** ** The boundary predicates *)

Lemma isclose_true_iff (a b atol : R) :
  np.isclose a b atol = true <-> Rabs (a - b) <= atol + np.rtol * Rabs b.
Proof.
  unfold np.isclose. destruct (Rle_dec _ _) as [H | H]; split; intros H';
    try assumption; try reflexivity; try discriminate H'. contradiction.
Qed.

Lemma isclose_zero (a : R) :
  np.isclose a 0 1e-5 = true <-> Rabs a <= 1e-5.
Proof.
  rewrite isclose_true_iff. unfold np.rtol.
  rewrite Rminus_0_r, Rabs_R0. split; intros H; lra.
Qed.

Lemma isclose_one (a : R) :
  np.isclose a 1 1e-5 = true <-> Rabs (a - 1) <= 2e-5.
Proof.
  rewrite isclose_true_iff. unfold np.rtol.
  rewrite Rabs_R1. split; intros H; lra.
Qed.

Lemma Some_inj_iff {A : Type} (a b : A) : Some a = Some b <-> a = b.
Proof. split; [intros H; injection H; auto | intros ->; reflexivity]. Qed.


Lemma left_true (x : R) (rest : list R) :
  Poisson.left (x :: rest) = Some true <-> Rabs x <= 1e-5.
Proof.
  unfold Poisson.left; cbn [np.getitem nth_error bind].
  rewrite Some_inj_iff. apply isclose_zero.
Qed.

Lemma right_true (x : R) (rest : list R) :
  Poisson.right (x :: rest) = Some true <-> Rabs (x - 1) <= 2e-5.
Proof.
  unfold Poisson.right, Poisson.Lx; cbn [np.getitem nth_error bind].
  rewrite Some_inj_iff. apply isclose_one.
Qed.

Lemma bands_disjoint (a : R) : Rabs a <= 1e-5 -> Rabs (a - 1) <= 2e-5 -> False.
Proof.
  unfold Rabs.
  destruct (Rcase_abs a), (Rcase_abs (a - 1)); intros H0 H1; lra.
Qed.

(** X2: opposite sides never overlap: no point satisfies both [left] and
    [right], nor both [bottom] and [top], so no node receives the Dirichlet
    conditions of both faces. *)
Theorem opposite_sides_are_disjoint :
  forall (point : np.vector),
    ~ (Poisson.left point = Some true /\ Poisson.right point = Some true)
    /\ ~ (Poisson.bottom point = Some true /\ Poisson.top point = Some true)
    /\ ~ (HyperElasticity.left point = Some true
          /\ HyperElasticity.right point = Some true).
Proof.
  intros point. repeat split; intros [H0 H1].
  - destruct point as [ | x rest]; [discriminate H0 | ].
    apply left_true in H0. apply right_true in H1.
    exact (bands_disjoint x H0 H1).
  - destruct point as [ | x [ | y rest]]; try discriminate H0.
    unfold Poisson.bottom, Poisson.top, Poisson.Ly in *;
      cbn [np.getitem nth_error bind] in *.
    apply Some_inj_iff, isclose_zero in H0.
    apply Some_inj_iff, isclose_one in H1.
    exact (bands_disjoint y H0 H1).
  - destruct point as [ | x rest]; [discriminate H0 | ].
    unfold HyperElasticity.left, HyperElasticity.right, HyperElasticity.Lx in *;
      cbn [np.getitem nth_error bind] in *.
    apply Some_inj_iff, isclose_zero in H0.
    apply Some_inj_iff, isclose_one in H1.
    exact (bands_disjoint x H0 H1).
Qed.




(** ** The Poisson source and traction *)

Lemma mass_map_value (U : Type) (u : U) (x0 x1 : R) (rest : list R) :
  Poisson.mass_map u (x0 :: x1 :: rest) = Some [- source_b x0 x1].
Proof.
  unfold Poisson.mass_map, source_b; cbn [np.getitem nth_error bind].
  rewrite !power_square. reflexivity.
Qed.






(** X5: the source term is symmetric about the centre of the square:
    [mass_map] is unchanged when the two coordinates are swapped and when
    either is reflected through [0.5]; coordinates after the second are
    ignored. *)
Theorem mass_map_symmetries :
  forall (U : Type) (u : U) (x0 x1 : R) (r r' : list R),
    Poisson.mass_map u (x0 :: x1 :: r) = Poisson.mass_map u (x1 :: x0 :: r')
    /\ Poisson.mass_map u (x0 :: x1 :: r)
       = Poisson.mass_map u (1 - x0 :: x1 :: r')
    /\ Poisson.mass_map u (x0 :: x1 :: r)
       = Poisson.mass_map u (x0 :: 1 - x1 :: r').
Proof.
  intros U u x0 x1 r r'. rewrite !mass_map_value.
  repeat split; do 3 f_equal; unfold source_b; do 3 f_equal; lra.
Qed.




(** ** The prescribed displacement of the left face *)







(** ** The strain energy *)

Lemma ncols_transpose (F : np.matrix) :
  np.nrows F = np.ncols F -> np.ncols (np.transpose F) = np.nrows F.
Proof.
  unfold np.transpose. intros Hsq.
  destruct (np.ncols F) as [ | n] eqn:Hn.
  - simpl. symmetry. exact Hsq.
  - cbn [seq map hd np.ncols]. unfold np.ncols at 1. cbn [hd map seq].
    rewrite length_map. reflexivity.
Qed.

(** X11: [psi] returns a value exactly on square matrices (of any size,
    the empty one included) and raises on every other 2-D array. *)
Theorem psi_defined_on_square_matrices :
  forall (F : np.matrix),
    (exists e, HyperElasticity.psi F = Some e)
    <-> (exists n, np.shape F = Some (n, n)).
Proof.
  intros F. unfold HyperElasticity.psi, np.det, np.shape.
  destruct (np.rectangular F) eqn:Hrect; cbn [andb].
  - destruct (Nat.eqb (np.nrows F) (np.ncols F)) eqn:Hsq; cbn [bind].
    + apply Nat.eqb_eq in Hsq.
      unfold np.matmul. rewrite (ncols_transpose F Hsq), Nat.eqb_refl.
      cbn [bind]. split; intros _.
      * exists (np.nrows F). rewrite <- Hsq. reflexivity.
      * eexists. reflexivity.
    + apply Nat.eqb_neq in Hsq. split.
      * intros [e He]. discriminate He.
      * intros [n Hn]. injection Hn as H1 H2. congruence.
  - split.
    + intros [e He]. discriminate He.
    + intros [n Hn]. discriminate Hn.
Qed.

Lemma psi_3x3_invariants (a b c d e f g h k : R) :
  HyperElasticity.psi [[a; b; c]; [d; e; f]; [g; h; k]]
  = Some (energy (det3 a b c d e f g h k) (sumsq3 a b c d e f g h k)).
Proof. apply psi_3x3. Qed.

Lemma det_3x3 (a b c d e f g h k : R) :
  np.det [[a; b; c]; [d; e; f]; [g; h; k]] = Some (det3 a b c d e f g h k).
Proof. unfold np.det; simpl. f_equal. unfold det3. ring. Qed.

Lemma trace_gram_3x3 (a b c d e f g h k : R) :
  exists G,
    np.matmul (np.transpose [[a; b; c]; [d; e; f]; [g; h; k]])
              [[a; b; c]; [d; e; f]; [g; h; k]] = Some G
    /\ np.trace G = sumsq3 a b c d e f g h k.
Proof.
  eexists. split; [reflexivity | ].
  unfold np.trace, np.dot, sumsq3; simpl. ring.
Qed.

Lemma energy_isochoric (I1 : R) : energy 1 I1 = 25 / 13 * (I1 - 3).
Proof.
  unfold energy. rewrite power_pos by lra.
  rewrite Rpower_base_1, power_square. lra.
Qed.

(** X12: for a 3x3 deformation gradient of determinant 1 the volumetric
    term vanishes and [psi] is the classical Neo-Hookean energy
    [mu / 2 * (I1 - 3)] with [mu / 2 = 25 / 13] and
    [I1 = trace (F.T @ F)]. *)
Theorem psi_of_isochoric_deformation :
  forall (F : np.matrix),
    np.shape F = Some (3, 3)%nat ->
    np.det F = Some 1 ->
    exists G,
      np.matmul (np.transpose F) F = Some G
      /\ HyperElasticity.psi F = Some (25 / 13 * (np.trace G - 3)).
Proof.
  intros F Hshape Hdet.
  destruct (shape_3x3 F Hshape) as (a & b & c & d & e & f & g & h & k & ->).
  rewrite det_3x3 in Hdet. injection Hdet as Hdet.
  destruct (trace_gram_3x3 a b c d e f g h k) as (G & HG & Htr).
  exists G. split; [exact HG | ].
  rewrite psi_3x3_invariants, Hdet, Htr. f_equal. apply energy_isochoric.
Qed.

Lemma psi_of_isochoric_deformation_witness :
  exists G,
    np.matmul (np.transpose [[1; 1; 0]; [0; 1; 0]; [0; 0; 1]])
              [[1; 1; 0]; [0; 1; 0]; [0; 0; 1]] = Some G
    /\ HyperElasticity.psi [[1; 1; 0]; [0; 1; 0]; [0; 0; 1]]
       = Some (25 / 13 * (np.trace G - 3)).
Proof.
  apply (psi_of_isochoric_deformation [[1; 1; 0]; [0; 1; 0]; [0; 0; 1]]).
  - reflexivity.
  - rewrite det_3x3. f_equal. unfold det3. ring.
Defined.





(** ** The stress in closed form *)











(** ** Uniform dilation *)








(** ** Rigid rotations *)



(** ** The class on a problem of dimension 2 *)






(** ** Shapes that [first_PK_stress] refuses or stretches *)

Lemma eye_shape (n : Z) (I : np.matrix) :
  np.eye n = Some I ->
  (0 <= n)%Z /\ np.nrows I = Z.to_nat n /\ np.ncols I = Z.to_nat n.
Proof.
  unfold np.eye. destruct (n <? 0)%Z eqn:Hn; [discriminate | ].
  intros H. injection H as <-.
  apply Z.ltb_ge in Hn. split; [exact Hn | ].
  unfold np.nrows, np.ncols. cbv zeta.
  split; [rewrite length_map, length_seq; reflexivity | ].
  destruct (Z.to_nat n) as [ | k]; [reflexivity | ].
  simpl. rewrite length_map, length_seq. reflexivity.
Qed.

Lemma broadcast_None (a b : nat) :
  a <> b -> a <> 1%nat -> b <> 1%nat -> np.broadcast a b = None.
Proof.
  intros Hab Ha Hb. unfold np.broadcast.
  apply Nat.eqb_neq in Hab, Ha, Hb. rewrite Hab, Ha, Hb. reflexivity.
Qed.

(** X19: [first_PK_stress] raises, whatever [grad] is, when [self.dim] is
    negative, and when [self.dim] is not 1 and the number of rows or of
    columns of [u_grad] is neither 1 nor [self.dim]. *)
Theorem first_PK_stress_refuses_bad_shapes :
  forall (grad : (np.matrix -> option R) -> np.matrix -> option np.matrix)
         (self : Problem) (u_grad : np.matrix),
    (dim self < 0)%Z
    \/ (Z.to_nat (dim self) <> 1%nat
        /\ ((np.nrows u_grad <> 1%nat /\ np.nrows u_grad <> Z.to_nat (dim self))
            \/ (np.ncols u_grad <> 1%nat
                /\ np.ncols u_grad <> Z.to_nat (dim self)))) ->
    HyperElasticity.first_PK_stress grad self u_grad = None.
Proof.
  intros grad self u_grad H. unfold HyperElasticity.first_PK_stress.
  destruct (np.eye (dim self)) as [I | ] eqn:HI; [ | reflexivity].
  cbn [bind]. destruct (eye_shape _ _ HI) as (Hn & Hr & Hc).
  destruct H as [Hneg | (Hn1 & [[Hr1 Hrn] | [Hc1 Hcn]])]; [lia | | ].
  - unfold np.add. rewrite Hr.
    rewrite (broadcast_None _ _ Hrn Hr1 Hn1). reflexivity.
  - unfold np.add. rewrite Hr, Hc.
    rewrite (broadcast_None _ _ Hcn Hc1 Hn1).
    destruct (np.broadcast _ _); reflexivity.
Qed.

Lemma first_PK_stress_refuses_bad_shapes_witness :
  HyperElasticity.first_PK_stress jax.grad_choice HyperElasticity.problem
    zeros2 = None
  /\ HyperElasticity.first_PK_stress jax.grad_choice
       (mkProblem 3 (-1) "HEX8" [] None) zeros3 = None.
Proof.
  split.
  - apply first_PK_stress_refuses_bad_shapes. right.
    split; [simpl; lia | ]. left. split; simpl; lia.
  - apply first_PK_stress_refuses_bad_shapes. left. simpl. lia.
Defined.

(** X20: on a problem of dimension 3 a displacement gradient of shape
    1x1, 1x3 or 3x1 is not refused: it is broadcast against the identity,
    and [first_PK_stress] returns what [grad psi] returns at the stretched
    3x3 matrix. *)
Theorem first_PK_stress_stretches_thin_gradients :
  forall (grad : (np.matrix -> option R) -> np.matrix -> option np.matrix)
         (self : Problem) (a b c : R),
    dim self = 3%Z ->
    HyperElasticity.first_PK_stress grad self [[a]]
    = grad HyperElasticity.psi
        [[a + 1; a + 0; a + 0]; [a + 0; a + 1; a + 0]; [a + 0; a + 0; a + 1]]
    /\ HyperElasticity.first_PK_stress grad self [[a; b; c]]
       = grad HyperElasticity.psi
           [[a + 1; b + 0; c + 0]; [a + 0; b + 1; c + 0];
            [a + 0; b + 0; c + 1]]
    /\ HyperElasticity.first_PK_stress grad self [[a]; [b]; [c]]
       = grad HyperElasticity.psi
           [[a + 1; a + 0; a + 0]; [b + 0; b + 1; b + 0];
            [c + 0; c + 0; c + 1]].
Proof.
  intros grad self a b c Hdim.
  unfold HyperElasticity.first_PK_stress, HyperElasticity.P_fn.
  rewrite Hdim, eye_3. cbn [bind].
  repeat split; cbn; apply bind_Some_r.
Qed.

Lemma first_PK_stress_stretches_thin_gradients_witness :
  HyperElasticity.first_PK_stress jax.grad_choice HyperElasticity.problem [[0]]
  = jax.grad_choice HyperElasticity.psi
      [[0 + 1; 0 + 0; 0 + 0]; [0 + 0; 0 + 1; 0 + 0]; [0 + 0; 0 + 0; 0 + 1]].
Proof.
  exact (proj1 (first_PK_stress_stretches_thin_gradients jax.grad_choice
                  HyperElasticity.problem 0 0 0 eq_refl)).
Defined.

(** ** Names and scopes *)

(** X21: every name the two notebooks read is bound before by an import,
    a definition, an assignment or a parameter, with one exception in each
    notebook: [__file__], read where [data_dir] is computed, is bound
    nowhere. *)
Theorem only_file_is_read_unbound :
  map Scope.unbound_reads Notebooks.repository
  = [["__file__"]; ["__file__"]]%string.
Proof. vm_compute. reflexivity. Qed.

(** X22: what the callables read from outside their parameters and
    locals.  The Poisson kernels and [psi] read the module [np] only and the
    constant boundary values read nothing; [first_PK_stress] also reads
    [self] and [P_fn] of the enclosing [get_tensor_map]; [right] and [top]
    read the module-level [Lx] and [Ly]. *)
Theorem names_captured_by_the_callables :
  map (fun f => (f, Scope.captures f Notebooks.poisson_ipynb))
      ["get_tensor_map"; "mass_map"; "surface_map"; "left"; "right";
       "bottom"; "top"; "dirichlet_val_left"; "dirichlet_val_right"]%string
  = [("get_tensor_map", []); ("mass_map", ["np"]); ("surface_map", ["np"]);
     ("left", ["np"]); ("right", ["np"; "Lx"]); ("bottom", ["np"]);
     ("top", ["np"; "Ly"]); ("dirichlet_val_left", []);
     ("dirichlet_val_right", [])]%string
  /\ map (fun f => (f, Scope.captures f Notebooks.hyperelasticity_ipynb))
         ["psi"; "first_PK_stress"; "left"; "right"; "zero_dirichlet_val";
          "dirichlet_val_x2"; "dirichlet_val_x3"]%string
     = [("psi", ["np"]); ("first_PK_stress", ["np"; "self"; "P_fn"]);
        ("left", ["np"]); ("right", ["np"; "Lx"]);
        ("zero_dirichlet_val", []); ("dirichlet_val_x2", ["np"]);
        ("dirichlet_val_x3", ["np"])]%string.
Proof. split; vm_compute; reflexivity. Qed.
